(** * google-sheets-tradingview: the /api/sheet-data middleware

    A shallow embedding of [src/index.js]: the two cache-backed Express
    routes, the credential set-up and the row formatter, with the
    properties of the specification proved over them.

    Conventions.
    - JavaScript strings are [string]s of 8-bit code units.
    - JavaScript numbers are IEEE-754 binary64 values, taken from the
      Standard Library's [spec_float] (precision 53, emax 1024).
    - A response body is the JavaScript value handed to [res.json]; its
      serialisation is not modelled.
    - The [console.log] / [console.error] lines have no effect on any route's
      response or on the cache and are left out.
    - A request runs to completion before the next one starts. *)

From Stdlib Require Import ZArith Ascii String List Bool Lia.
From Stdlib Require Import SpecFloat.
From stdpp Require Import base option list gmap strings.

Open Scope string_scope.
Open Scope Z_scope.

(** ** JavaScript numbers *)

Module Number.

Definition prec : Z := 53.
Definition emax : Z := 1024.

Definition number : Type := spec_float.

Definition NaN : number := S754_nan.
Definition Infinity : number := S754_infinity false.
Definition NegInfinity : number := S754_infinity true.

(** The Number value of an integer literal such as [100]. *)
Definition ofZ (z : Z) : number := binary_normalize prec emax z 0 false.

(** The Number value of the decimal [m * 10^e] with [0 <= m], rounded to
    the nearest binary64 (ties to even); [neg] is the sign of the
    literal, kept on a zero. *)
Definition ofDecimal (neg : bool) (m e : Z) : number :=
  match m with
  | Zpos p =>
      if 0 <=? e
      then binary_round prec emax neg (p * Z.to_pos (10 ^ e))%positive 0
      else SFdiv prec emax (S754_finite neg p 0)
                           (S754_finite false (Z.to_pos (10 ^ (- e))) 0)
  | _ => S754_zero neg
  end.

(** The global [isNaN] on a Number. *)
Definition isNaN (x : number) : bool :=
  match x with S754_nan => true | _ => false end.

(** The global [isFinite] on a Number. *)
Definition isFinite (x : number) : bool :=
  match x with S754_zero _ | S754_finite _ _ _ => true | _ => false end.

End Number.

Export Number.

(** ** The global [parseFloat] on strings

    ECMAScript: strip leading white space, take the longest prefix that is
    a [StrDecimalLiteral], and return its Number value; [NaN] when no
    prefix is one. *)

Module ParseFloat.

Definition code (a : ascii) : Z := Z.of_N (N_of_ascii a).

(** WhiteSpace and LineTerminator code units below 256. *)
Definition isWhiteSpace (a : ascii) : bool :=
  let n := code a in
  ((9 <=? n) && (n <=? 13)) || (n =? 32) || (n =? 160).

Fixpoint trimStart (s : list ascii) : list ascii :=
  match s with
  | a :: r => if isWhiteSpace a then trimStart r else s
  | [] => []
  end.

Definition digit (a : ascii) : option Z :=
  let n := code a in
  if (48 <=? n) && (n <=? 57) then Some (n - 48) else None.

(** The longest run of DecimalDigits at the head, and what follows. *)
Fixpoint spanDigits (s : list ascii) : list Z * list ascii :=
  match s with
  | a :: r =>
      match digit a with
      | Some d => let '(ds, rest) := spanDigits r in (d :: ds, rest)
      | None => ([], s)
      end
  | [] => ([], [])
  end.

Definition digitsValue (ds : list Z) : Z :=
  fold_left (fun acc d => 10 * acc + d) ds 0.

Fixpoint startsWith (p s : list ascii) : bool :=
  match p, s with
  | [], _ => true
  | a :: p', b :: s' => Ascii.eqb a b && startsWith p' s'
  | _ :: _, [] => false
  end.

(** The value of an ExponentPart at the head of [s]; [0] when there is
    none (an [e] without digits after it is not part of the literal). *)
Definition exponentPart (s : list ascii) : Z :=
  match s with
  | c :: r =>
      if Ascii.eqb c "e" || Ascii.eqb c "E" then
        let '(neg, r') :=
          match r with
          | sg :: r' =>
              if Ascii.eqb sg "+" then (false, r')
              else if Ascii.eqb sg "-" then (true, r')
              else (false, r)
          | [] => (false, r)
          end in
        match spanDigits r' with
        | ([], _) => 0
        | (ds, _) => if neg then - digitsValue ds else digitsValue ds
        end
      else 0
  | [] => 0
  end.

(** StrUnsignedDecimalLiteral:
    [Infinity], [digits . digits? exp?], [. digits exp?], [digits exp?]. *)
Definition unsignedLiteral (neg : bool) (s : list ascii) : number :=
  if startsWith (list_ascii_of_string "Infinity") s then S754_infinity neg
  else
    let '(ip, r1) := spanDigits s in
    match r1 with
    | dot :: r2 =>
        if Ascii.eqb dot "." then
          let '(fp, r3) := spanDigits r2 in
          match ip, fp with
          | [], [] => NaN
          | _, _ =>
              ofDecimal neg (digitsValue (ip ++ fp))
                        (exponentPart r3 - Z.of_nat (length fp))
          end
        else
          match ip with
          | [] => NaN
          | _ => ofDecimal neg (digitsValue ip) (exponentPart r1)
          end
    | [] =>
        match ip with
        | [] => NaN
        | _ => ofDecimal neg (digitsValue ip) 0
        end
    end.

Definition parseFloat (input : string) : number :=
  match trimStart (list_ascii_of_string input) with
  | sg :: r =>
      if Ascii.eqb sg "+" then unsignedLiteral false r
      else if Ascii.eqb sg "-" then unsignedLiteral true r
      else unsignedLiteral false (sg :: r)
  | [] => NaN
  end.

End ParseFloat.

Export ParseFloat.

(** ** JavaScript values *)

#[warnings="-register-all"] Inductive JSValue : Type :=
| JUndefined
| JNull
| JBool (b : bool)
| JNumber (x : number)
| JString (s : string)
| JArray (items : list JSValue)
| JObject (fields : list (string * JSValue)).

(** ToBoolean, as applied by [if (v)] and [!v]. *)
Definition truthy (v : JSValue) : bool :=
  match v with
  | JUndefined | JNull => false
  | JBool b => b
  | JNumber x => match x with S754_zero _ | S754_nan => false | _ => true end
  | JString s => negb (String.eqb s "")
  | JArray _ | JObject _ => true
  end.

(** [o || d] for an environment variable: unset and empty are both falsy. *)
Definition orDefault (o : option string) (d : string) : string :=
  match o with
  | Some s => if String.eqb s "" then d else s
  | None => d
  end.

(** A thrown [Error]; only its [message] is ever read. *)
Record JSError : Type := { message : string }.

Inductive Completion (A : Type) : Type :=
| Normal (a : A)
| Throw (e : JSError).

Arguments Normal {A} a.
Arguments Throw {A} e.

(** ** The cache: [new NodeCache({ stdTTL: 300 })] *)

Module NodeCache.

(** A stored value and the time (ms) at which it expires. *)
Record entry : Type := { v : JSValue; t : Z }.

Abbreviation store := (gmap string entry).

(** Seconds, from line 11 of index.js. *)
Definition stdTTL : Z := 300.

Definition unexpired (now : Z) (e : entry) : bool := now <=? t e.

(** Modelled from the spec: the node-cache package is not among the
    sources.  Section 4.1: [get(key) -> value or absent]; section 3: the
    expiry is the creation time plus the TTL and an expired entry is
    treated as absent.  An absent key reads as [undefined]. *)
Definition get (c : store) (key : string) (now : Z) : JSValue :=
  match c !! key with
  | Some e => if unexpired now e then v e else JUndefined
  | None => JUndefined
  end.

(** Modelled from the spec: section 4.1, [set(key, value)] resets the
    TTL window. *)
Definition set (c : store) (key : string) (val : JSValue) (now : Z) : store :=
  <[key := {| v := val; t := now + stdTTL * 1000 |}]> c.

(** Modelled from the spec: section 4.1, [delete(key)] removes
    immediately regardless of remaining TTL. *)
Definition del (c : store) (key : string) : store := delete key c.

End NodeCache.

(** ** The environment and the external collaborators *)

Record Env : Type := {
  GOOGLE_CREDENTIALS : option string;
  SHEET_ID : option string;
  SHEET_RANGE : option string
}.

Definition Row : Type := list string.

Record AuthOptions : Type := { credentials : JSValue; scopes : list string }.
Record GoogleAuth : Type := { authOptions : AuthOptions }.
Record SheetsOptions : Type := { version : string; auth : GoogleAuth }.
Record Sheets : Type := { sheetsOptions : SheetsOptions }.
Record GetParams : Type := { spreadsheetId : option string; range : string }.

(** [response.data.values]: absent (undefined) or the rows. *)
Record GetResponse : Type := { data_values : option (list Row) }.

(** What index.js calls and does not define: [JSON.parse], the googleapis
    constructors and the range read.  Each may throw (or reject). *)
Record Platform : Type := {
  JSON_parse : string -> Completion JSValue;
  new_GoogleAuth : AuthOptions -> Completion GoogleAuth;
  google_sheets : SheetsOptions -> Completion Sheets;
  spreadsheets_values_get : Sheets -> GetParams -> Completion GetResponse
}.

(** One request's view of the outside: the environment variables, the
    collaborators, and the clock read by [cache.get] ([now]) and, after
    the awaited fetch, by [cache.set] ([later]). *)
Record World : Type := {
  env : Env;
  platform : Platform;
  now : Z;
  later : Z
}.

(** index.js lines 16-30. *)
Definition initializeGoogleSheets (P : Platform) (e : Env) : option Sheets :=
  match JSON_parse P (orDefault (GOOGLE_CREDENTIALS e) "{}") with
  | Throw _ => None
  | Normal creds =>
      match new_GoogleAuth P
              {| credentials := creds;
                 scopes := ["https://www.googleapis.com/auth/spreadsheets.readonly"] |} with
      | Throw _ => None
      | Normal a =>
          match google_sheets P {| version := "v4"; auth := a |} with
          | Throw _ => None
          | Normal sheets => Some sheets
          end
      end
  end.

(** ** The formatter (index.js lines 74-91) *)

(** The body of the [forEach] callback, on the array [formattedData.c]. *)
Definition pushRow (c : list number) (row : Row) : list number :=
  match row !! 1%nat with
  | Some cell =>
      if negb (String.eqb cell "") then
        let value := parseFloat cell in
        if negb (isNaN value) then c ++ [value] else c
      else c
  | None => c
  end.

Definition forEachRow (dataRows : list Row) : list number :=
  fold_left pushRow dataRows [].

(** The object literal [{ s: "ok", c: [...] }]. *)
Definition series (c : list number) : JSValue :=
  JObject [("s", JString "ok"); ("c", JArray (JNumber <$> c))].

Definition formattedData (values : list Row) : JSValue :=
  series (forEachRow (drop 1 values)).

Definition mockData : JSValue :=
  series (ofZ <$> [100; 105; 95; 110; 115; 105; 100; 90; 95; 120]).

(** ** Request handlers: a state and exception monad *)

Record Response : Type := {
  statusCode : Z;
  headers : list (string * string);
  body : option JSValue
}.

Inductive Event : Type :=
| CacheGet (key : string)
| CacheSet (key : string) (val : JSValue)
| CacheDel (key : string)
| ValuesGet (sheets : Sheets) (params : GetParams).

(** The process-wide cache, the request's [res] object and the calls made
    so far. *)
Record Ctx : Type := {
  cache : NodeCache.store;
  res : Response;
  trace : list Event
}.

Definition Handler (A : Type) : Type := Ctx -> Completion A * Ctx.

#[global] Instance Handler_ret : MRet Handler :=
  fun A a s => (Normal a, s).

#[global] Instance Handler_bind : MBind Handler :=
  fun A B f m s =>
    match m s with
    | (Normal a, s') => f a s'
    | (Throw e, s') => (Throw e, s')
    end.

Definition tryCatch {A} (m : Handler A) (h : JSError -> Handler A) : Handler A :=
  fun s =>
    match m s with
    | (Normal a, s') => (Normal a, s')
    | (Throw e, s') => h e s'
    end.

Definition emit (ev : Event) (s : Ctx) : Ctx :=
  {| cache := cache s; res := res s; trace := trace s ++ [ev] |}.

Definition cache_get (w : World) (key : string) : Handler JSValue :=
  fun s => (Normal (NodeCache.get (cache s) key (now w)), emit (CacheGet key) s).

Definition cache_set (w : World) (key : string) (val : JSValue) : Handler unit :=
  fun s =>
    (Normal tt,
     {| cache := NodeCache.set (cache s) key val (later w);
        res := res s;
        trace := trace s ++ [CacheSet key val] |}).

Definition cache_del (key : string) : Handler unit :=
  fun s =>
    (Normal tt,
     {| cache := NodeCache.del (cache s) key;
        res := res s;
        trace := trace s ++ [CacheDel key] |}).

Definition withRes (f : Response -> Response) : Handler unit :=
  fun s => (Normal tt, {| cache := cache s; res := f (res s); trace := trace s |}).

Definition res_status (code : Z) : Handler unit :=
  withRes (fun r => {| statusCode := code; headers := headers r; body := body r |}).

Definition res_header (name value : string) : Handler unit :=
  withRes (fun r =>
    {| statusCode := statusCode r;
       headers := headers r ++ [(name, value)];
       body := body r |}).

Definition res_json (obj : JSValue) : Handler unit :=
  withRes (fun r =>
    {| statusCode := statusCode r; headers := headers r; body := Some obj |}).

(** [await sheets.spreadsheets.values.get(params)]. *)
Definition values_get (w : World) (sheets : Sheets) (params : GetParams)
  : Handler GetResponse :=
  fun s =>
    (spreadsheets_values_get (platform w) sheets params,
     emit (ValuesGet sheets params) s).

(** [app.get('/api/sheet-data', ...)], index.js lines 33-106. *)
Definition sheetData (w : World) : Handler unit :=
  tryCatch
    (cachedData ← cache_get w "sheetData";
     if truthy cachedData then res_json cachedData
     else
       match initializeGoogleSheets (platform w) (env w) with
       | None => res_json mockData
       | Some sheets =>
           let sheetId := SHEET_ID (env w) in
           let rng := orDefault (SHEET_RANGE (env w)) "Sheet1!A:B" in
           response ← values_get w sheets
                        {| spreadsheetId := sheetId; range := rng |};
           let values := default [] (data_values response) in
           if (Z.of_nat (length values) =? 0) then
             res_status 404;;
             res_json (JObject [("error", JString "No data found in spreadsheet")])
           else
             let formatted := formattedData values in
             cache_set w "sheetData" formatted;;
             res_header "Access-Control-Allow-Origin" "*";;
             res_json formatted
       end)
    (fun error =>
       res_status 500;;
       res_json (JObject [("error", JString "Failed to fetch data from Google Sheets");
                          ("details", JString (message error))])).

(** [app.get('/api/refresh-cache', ...)], index.js lines 109-112. *)
Definition refreshCache : Handler unit :=
  cache_del "sheetData";;
  res_json (JObject [("status", JString "Cache cleared")]).

(** ** The server: one request against the shared cache *)

Definition freshRes : Response :=
  {| statusCode := 200; headers := []; body := None |}.

Definition run (h : Handler unit) (c : NodeCache.store) : Ctx :=
  snd (h {| cache := c; res := freshRes; trace := [] |}).

Inductive Request : Type :=
| GetSheetData (w : World)
| GetRefreshCache.

Definition serve (c : NodeCache.store) (r : Request) : Ctx :=
  match r with
  | GetSheetData w => run (sheetData w) c
  | GetRefreshCache => run refreshCache c
  end.

(** The cache after a sequence of requests. *)
Definition serveAll (c : NodeCache.store) (rs : list Request) : NodeCache.store :=
  fold_left (fun c r => cache (serve c r)) rs c.

(** ** Derived notions used in the statements *)

(** The lookup of line 36 yields nothing usable: the branch of line 37 is
    not taken. *)
Definition cacheMiss (c : NodeCache.store) (w : World) : Prop :=
  truthy (NodeCache.get c "sheetData" (now w)) = false.

Definition params (w : World) : GetParams :=
  {| spreadsheetId := SHEET_ID (env w);
     range := orDefault (SHEET_RANGE (env w)) "Sheet1!A:B" |}.

Definition isValuesGet (ev : Event) : bool :=
  match ev with ValuesGet _ _ => true | _ => false end.

Definition isCacheSet (ev : Event) : bool :=
  match ev with CacheSet _ _ => true | _ => false end.

(** The request called the upstream spreadsheet client. *)
Definition calledUpstream (o : Ctx) : bool := existsb isValuesGet (trace o).

(** The request stored something in the cache. *)
Definition wroteCache (o : Ctx) : bool := existsb isCacheSet (trace o).

Definition corsHeader : string * string := ("Access-Control-Allow-Origin", "*").

Definition hasCors (o : Ctx) : Prop := In corsHeader (headers (res o)).

Definition okResponse (b : JSValue) : Response :=
  {| statusCode := 200; headers := []; body := Some b |}.

Definition notFoundResponse : Response :=
  {| statusCode := 404; headers := [];
     body := Some (JObject [("error", JString "No data found in spreadsheet")]) |}.

Definition errorResponse (m : string) : Response :=
  {| statusCode := 500; headers := [];
     body := Some (JObject [("error", JString "Failed to fetch data from Google Sheets");
                            ("details", JString m)]) |}.

(** A body of the shape [{ k1: "ok", k2: [numbers] }]. *)
Definition hasShape (k1 k2 : string) (b : option JSValue) : Prop :=
  exists vs : list number,
    b = Some (JObject [(k1, JString "ok"); (k2, JArray (JNumber <$> vs))]).

(** *** The formatter in the words of the specification

    Section 4.3: drop the first row; for each remaining row look at the
    cell at index 1; skip it when undefined or empty; parse it; skip it
    when the parse is rejected; otherwise append the value.  [keep]
    decides which parsed values are accepted. *)
Definition keptValue (keep : number -> bool) (row : Row) : option number :=
  match row !! 1%nat with
  | Some cell =>
      if String.eqb cell "" then None
      else if keep (parseFloat cell) then Some (parseFloat cell) else None
  | None => None
  end.

Definition specValues (keep : number -> bool) (rows : list Row) : list number :=
  omap (keptValue keep) (tail rows).

Definition notNaN (x : number) : bool := negb (isNaN x).

(** *** Concrete collaborators for the examples *)

(** [JSON.parse] on the two texts the examples use: ["{}"] is the empty
    object; ["not json"] is a SyntaxError. *)
Definition exampleParse (text : string) : Completion JSValue :=
  if String.eqb text "{}" then Normal (JObject [])
  else Throw {| message := "Unexpected token" |}.

(** The googleapis constructors store their options and do not throw;
    the range read is given. *)
Definition examplePlatform (read : Completion GetResponse) : Platform :=
  {| JSON_parse := exampleParse;
     new_GoogleAuth := fun o => Normal {| authOptions := o |};
     google_sheets := fun o => Normal {| sheetsOptions := o |};
     spreadsheets_values_get := fun _ _ => read |}.

Definition exampleWorld (creds : option string) (read : Completion GetResponse)
    (t : Z) : World :=
  {| env := {| GOOGLE_CREDENTIALS := creds; SHEET_ID := Some "sheet-1";
               SHEET_RANGE := None |};
     platform := examplePlatform read;
     now := t;
     later := t + 40 |}.

Definition exampleSheets : Sheets :=
  {| sheetsOptions :=
       {| version := "v4";
          auth := {| authOptions :=
                       {| credentials := JObject [];
                          scopes := ["https://www.googleapis.com/auth/spreadsheets.readonly"] |} |} |} |}.

Definition noClientEmail : Completion GetResponse :=
  Throw {| message := "The incoming JSON object does not contain a client_email field" |}.

Definition rowsRead (rows : list Row) : Completion GetResponse :=
  Normal {| data_values := Some rows |}.

(** The terminal states of the state machine of section 4.4, as a
    relation between a request (world and cache before) and its outcome. *)
Inductive Served (w : World) (c : NodeCache.store) : Ctx -> Prop :=
| HitRespond :
    truthy (NodeCache.get c "sheetData" (now w)) = true ->
    Served w c {| cache := c;
                  res := okResponse (NodeCache.get c "sheetData" (now w));
                  trace := [CacheGet "sheetData"] |}
| MockRespond :
    cacheMiss c w ->
    initializeGoogleSheets (platform w) (env w) = None ->
    Served w c {| cache := c; res := okResponse mockData;
                  trace := [CacheGet "sheetData"] |}
| ErrorRespond sheets e :
    cacheMiss c w ->
    initializeGoogleSheets (platform w) (env w) = Some sheets ->
    spreadsheets_values_get (platform w) sheets (params w) = Throw e ->
    Served w c {| cache := c; res := errorResponse (message e);
                  trace := [CacheGet "sheetData"; ValuesGet sheets (params w)] |}
| NotFoundRespond sheets r :
    cacheMiss c w ->
    initializeGoogleSheets (platform w) (env w) = Some sheets ->
    spreadsheets_values_get (platform w) sheets (params w) = Normal r ->
    default [] (data_values r) = [] ->
    Served w c {| cache := c; res := notFoundResponse;
                  trace := [CacheGet "sheetData"; ValuesGet sheets (params w)] |}
| FreshRespond sheets r :
    cacheMiss c w ->
    initializeGoogleSheets (platform w) (env w) = Some sheets ->
    spreadsheets_values_get (platform w) sheets (params w) = Normal r ->
    default [] (data_values r) <> [] ->
    Served w c
      {| cache := NodeCache.set c "sheetData"
                    (formattedData (default [] (data_values r))) (later w);
         res := {| statusCode := 200; headers := [corsHeader];
                   body := Some (formattedData (default [] (data_values r))) |};
         trace := [CacheGet "sheetData"; ValuesGet sheets (params w);
                   CacheSet "sheetData" (formattedData (default [] (data_values r)))] |}.

(** The invariant behind a cache hit: whatever sits under "sheetData" was
    put there by line 94 and is a series. *)
Definition seriesCached (c : NodeCache.store) : Prop :=
  forall e, c !! "sheetData" = Some e -> exists vs, NodeCache.v e = series vs.

(** *** Notions for the further properties *)

(** The cell of column B, [row[1]]. *)
Definition columnB (row : Row) : option string := row !! 1%nat.

(** A series body none of whose values is NaN. *)
Definition cleanSeries (b : option JSValue) : Prop :=
  exists vs : list number,
    b = Some (series vs) /\ Forall (fun x => isNaN x = false) vs.

(** The cache holds, under "sheetData", nothing but such a series. *)
Definition cleanCached (c : NodeCache.store) : Prop :=
  forall e, c !! "sheetData" = Some e -> cleanSeries (Some (NodeCache.v e)).

(** The same request with another value of GOOGLE_CREDENTIALS. *)
Definition withCredentials (g : option string) (w : World) : World :=
  {| env := {| GOOGLE_CREDENTIALS := g;
               SHEET_ID := SHEET_ID (env w);
               SHEET_RANGE := SHEET_RANGE (env w) |};
     platform := platform w;
     now := now w;
     later := later w |}.

(** The same request against other collaborators and another
    environment, at the same time. *)
Definition sameClock (w w' : World) : Prop := now w = now w'.

(** ** [parseFloat] on sample cells *)

Lemma parseFloat_samples :
  parseFloat "100" = ofZ 100 /\
  parseFloat "12abc" = ofZ 12 /\
  parseFloat "  3.5" = ofDecimal false 35 (-1) /\
  parseFloat "1e3" = ofZ 1000 /\
  parseFloat "-.5e-2" = ofDecimal true 5 (-3) /\
  parseFloat "0.1" = S754_finite false 7205759403792794 (-56) /\
  parseFloat "abc" = NaN /\
  parseFloat "" = NaN /\
  parseFloat "." = NaN /\
  parseFloat "-0" = S754_zero true /\
  parseFloat "-Infinity" = NegInfinity /\
  parseFloat "1e999" = Infinity.
Proof. vm_compute. repeat split. Qed.

(** ** The five ways through /api/sheet-data *)

Section Paths.

Variable w : World.
Variable c : NodeCache.store.

Lemma sheetData_hit :
  truthy (NodeCache.get c "sheetData" (now w)) = true ->
  run (sheetData w) c =
    {| cache := c;
       res := okResponse (NodeCache.get c "sheetData" (now w));
       trace := [CacheGet "sheetData"] |}.
Proof.
  intros Hhit.
  unfold run, sheetData, tryCatch, mbind, Handler_bind, cache_get; simpl.
  rewrite Hhit. reflexivity.
Qed.

Lemma sheetData_mock :
  cacheMiss c w ->
  initializeGoogleSheets (platform w) (env w) = None ->
  run (sheetData w) c =
    {| cache := c; res := okResponse mockData; trace := [CacheGet "sheetData"] |}.
Proof.
  intros Hmiss Hinit.
  unfold run, sheetData, tryCatch, mbind, Handler_bind, cache_get; simpl.
  rewrite Hmiss, Hinit. reflexivity.
Qed.

Variable sheets : Sheets.
Hypothesis Hmiss : cacheMiss c w.
Hypothesis Hinit : initializeGoogleSheets (platform w) (env w) = Some sheets.

Lemma sheetData_error (e : JSError) :
  spreadsheets_values_get (platform w) sheets (params w) = Throw e ->
  run (sheetData w) c =
    {| cache := c;
       res := errorResponse (message e);
       trace := [CacheGet "sheetData"; ValuesGet sheets (params w)] |}.
Proof.
  intros Hget.
  unfold run, sheetData, tryCatch, mbind, Handler_bind, cache_get, values_get; simpl.
  rewrite Hmiss, Hinit; simpl. fold (params w). rewrite Hget. reflexivity.
Qed.

Lemma sheetData_empty (r : GetResponse) :
  spreadsheets_values_get (platform w) sheets (params w) = Normal r ->
  default [] (data_values r) = [] ->
  run (sheetData w) c =
    {| cache := c;
       res := notFoundResponse;
       trace := [CacheGet "sheetData"; ValuesGet sheets (params w)] |}.
Proof.
  intros Hget Hvals.
  unfold run, sheetData, tryCatch, mbind, Handler_bind, cache_get, values_get; simpl.
  rewrite Hmiss, Hinit; simpl. fold (params w). rewrite Hget, Hvals. reflexivity.
Qed.

Lemma sheetData_fresh (r : GetResponse) :
  spreadsheets_values_get (platform w) sheets (params w) = Normal r ->
  default [] (data_values r) <> [] ->
  run (sheetData w) c =
    {| cache := NodeCache.set c "sheetData"
                  (formattedData (default [] (data_values r))) (later w);
       res := {| statusCode := 200; headers := [corsHeader];
                 body := Some (formattedData (default [] (data_values r))) |};
       trace := [CacheGet "sheetData"; ValuesGet sheets (params w);
                 CacheSet "sheetData" (formattedData (default [] (data_values r)))] |}.
Proof.
  intros Hget Hvals.
  unfold run, sheetData, tryCatch, mbind, Handler_bind, cache_get, values_get; simpl.
  rewrite Hmiss, Hinit; simpl. fold (params w). rewrite Hget.
  destruct (default [] (data_values r)) as [|row rows] eqn:E; [congruence|].
  reflexivity.
Qed.

End Paths.

(** Every request to /api/sheet-data ends in exactly one of them. *)
Lemma sheetData_served (w : World) (c : NodeCache.store) :
  Served w c (run (sheetData w) c).
Proof.
  destruct (truthy (NodeCache.get c "sheetData" (now w))) eqn:Hc.
  - rewrite sheetData_hit by exact Hc. now constructor.
  - destruct (initializeGoogleSheets (platform w) (env w)) as [sheets|] eqn:Hi.
    + destruct (spreadsheets_values_get (platform w) sheets (params w))
        as [r|e] eqn:Hg.
      * destruct (default [] (data_values r)) as [|row rows] eqn:Hv.
        -- rewrite (sheetData_empty w c sheets Hc Hi r Hg Hv).
           now apply NotFoundRespond with (r := r).
        -- assert (Hne : default [] (data_values r) <> []) by (rewrite Hv; discriminate).
           rewrite (sheetData_fresh w c sheets Hc Hi r Hg Hne).
           now apply FreshRespond.
      * rewrite (sheetData_error w c sheets Hc Hi e Hg). now apply ErrorRespond.
    + rewrite sheetData_mock by assumption. now constructor.
Qed.

(** Initialisation fails exactly when one of its three calls throws. *)
Lemma initializeGoogleSheets_malformed (P : Platform) (e : Env) (err : JSError) :
  JSON_parse P (orDefault (GOOGLE_CREDENTIALS e) "{}") = Throw err ->
  initializeGoogleSheets P e = None.
Proof. intros H. unfold initializeGoogleSheets. now rewrite H. Qed.

(** With the variable unset (or empty) the text given to [JSON.parse] is
    ["{}"], whatever the collaborators are. *)
Lemma credentials_text_unset (e : Env) :
  GOOGLE_CREDENTIALS e = None \/ GOOGLE_CREDENTIALS e = Some "" ->
  orDefault (GOOGLE_CREDENTIALS e) "{}" = "{}".
Proof. intros [H|H]; rewrite H; reflexivity. Qed.

(** So, once ["{}"] parses and the constructors return, an unset variable
    yields a client and the request goes upstream. *)
Lemma unset_credentials_go_upstream (w : World) (c : NodeCache.store) creds a sh :
  GOOGLE_CREDENTIALS (env w) = None ->
  JSON_parse (platform w) "{}" = Normal creds ->
  new_GoogleAuth (platform w)
    {| credentials := creds;
       scopes := ["https://www.googleapis.com/auth/spreadsheets.readonly"] |} = Normal a ->
  google_sheets (platform w) {| version := "v4"; auth := a |} = Normal sh ->
  cacheMiss c w ->
  calledUpstream (run (sheetData w) c) = true.
Proof.
  intros Hu Hp Ha Hs Hm.
  assert (Hi : initializeGoogleSheets (platform w) (env w) = Some sh).
  { unfold initializeGoogleSheets. rewrite Hu; simpl. now rewrite Hp, Ha, Hs. }
  destruct (sheetData_served w c) as [Hc| ? Hn | | | ]; try reflexivity.
  - unfold cacheMiss in Hm. congruence.
  - congruence.
Qed.

Lemma cacheMiss_absent (c : NodeCache.store) (w : World) :
  c !! "sheetData" = None -> cacheMiss c w.
Proof. intros H. unfold cacheMiss, NodeCache.get. now rewrite H. Qed.

(** * The claims *)

(** ** C1: the mock path *)

(** C1, as stated, fails: with GOOGLE_CREDENTIALS unset and an empty cache,
    line 18 parses the default text ["{}"], the client is built, and the
    handler calls the spreadsheet API instead of answering with the mock
    series (here the call is rejected and the answer is a 500). *)
Lemma C1_unset_credentials_reach_upstream :
  let w := exampleWorld None noClientEmail 1000 in
  let o := run (sheetData w) ∅ in
  GOOGLE_CREDENTIALS (env w) = None /\
  body (res o) <> Some mockData /\
  res o = errorResponse "The incoming JSON object does not contain a client_email field" /\
  trace o = [CacheGet "sheetData"; ValuesGet exampleSheets (params w)].
Proof.
  intros w o.
  assert (Ho : o = {| cache := ∅;
                      res := errorResponse "The incoming JSON object does not contain a client_email field";
                      trace := [CacheGet "sheetData"; ValuesGet exampleSheets (params w)] |}).
  { unfold o.
    apply (sheetData_error w ∅ exampleSheets (cacheMiss_absent ∅ w (lookup_empty _))
             eq_refl {| message := "The incoming JSON object does not contain a client_email field" |}).
    reflexivity. }
  rewrite Ho; simpl. repeat split. discriminate.
Qed.

(** C1, amended: while the cache holds no "sheetData" entry and
    [initializeGoogleSheets] returns null, the handler answers 200 with the
    fixed mock series, reads the cache once and does nothing else (no store,
    no upstream call), leaves the cache as it was, and a repeated request
    under the same conditions is answered the same way. *)
Theorem C1_mock_path_when_initialization_fails
    (w w' : World) (c : NodeCache.store) :
  c !! "sheetData" = None ->
  initializeGoogleSheets (platform w) (env w) = None ->
  initializeGoogleSheets (platform w') (env w') = None ->
  let o := run (sheetData w) c in
  let o' := run (sheetData w') (cache o) in
  res o = okResponse mockData /\
  mockData = JObject [("s", JString "ok");
                      ("c", JArray (JNumber <$> (ofZ <$> [100; 105; 95; 110; 115; 105; 100; 90; 95; 120])))] /\
  cache o = c /\
  trace o = [CacheGet "sheetData"] /\
  res o' = okResponse mockData /\
  cache o' = c /\
  trace o' = [CacheGet "sheetData"].
Proof.
  intros Habs Hi Hi' o o'.
  assert (Ho : o = {| cache := c; res := okResponse mockData;
                      trace := [CacheGet "sheetData"] |})
    by (apply sheetData_mock; [now apply cacheMiss_absent | exact Hi]).
  assert (Ho' : o' = {| cache := c; res := okResponse mockData;
                        trace := [CacheGet "sheetData"] |}).
  { unfold o'. rewrite Ho; simpl.
    apply sheetData_mock; [now apply cacheMiss_absent | exact Hi']. }
  rewrite Ho, Ho'; simpl. repeat split.
Qed.

(** A malformed credential text: [JSON.parse] throws, the mock is served. *)
Lemma C1_mock_path_witness :
  let w := exampleWorld (Some "not json") noClientEmail 1000 in
  (∅ : NodeCache.store) !! "sheetData" = None /\
  initializeGoogleSheets (platform w) (env w) = None /\
  res (run (sheetData w) ∅) = okResponse mockData /\
  cache (run (sheetData w) ∅) = ∅.
Proof.
  intros w.
  pose proof (C1_mock_path_when_initialization_fails w w ∅
                (lookup_empty _) eq_refl eq_refl) as H.
  simpl in H. destruct H as (H1 & _ & H2 & _).
  split; [apply lookup_empty|]. split; [reflexivity|]. split; assumption.
Defined.

(** ** C2: the shape of a successful body *)

(** C2, as stated, fails: the mock answer is a 200 whose body has the
    fields [s] and [c], not [status] and [values]. *)
Lemma C2_mock_body_not_status_values :
  let w := exampleWorld (Some "not json") noClientEmail 1000 in
  let o := run (sheetData w) ∅ in
  statusCode (res o) = 200 /\
  body (res o) = Some mockData /\
  ~ hasShape "status" "values" (body (res o)).
Proof.
  intros w o.
  assert (Ho : o = {| cache := ∅; res := okResponse mockData;
                      trace := [CacheGet "sheetData"] |})
    by (apply sheetData_mock; [apply cacheMiss_absent, lookup_empty | reflexivity]).
  rewrite Ho; simpl. repeat split.
  intros [vs Hvs]. discriminate Hvs.
Qed.

Lemma seriesCached_empty : seriesCached ∅.
Proof. intros e He. rewrite lookup_empty in He. discriminate. Qed.

Lemma seriesCached_serve (c : NodeCache.store) (r : Request) :
  seriesCached c -> seriesCached (cache (serve c r)).
Proof.
  intros Hc. destruct r as [w|]; simpl.
  - destruct (sheetData_served w c); simpl; try exact Hc.
    intros e He. unfold NodeCache.set in He.
    rewrite lookup_insert_eq in He. injection He as <-. simpl.
    now exists (forEachRow (drop 1 (default [] (data_values r)))).
  - intros e He. unfold run, refreshCache, mbind, Handler_bind, cache_del in He.
    simpl in He. unfold NodeCache.del in He.
    rewrite lookup_delete_eq in He. discriminate.
Qed.

Lemma seriesCached_serveAll (rs : list Request) (c : NodeCache.store) :
  seriesCached c -> seriesCached (serveAll c rs).
Proof.
  revert c. induction rs as [|r rs IH]; intros c Hc; simpl.
  - exact Hc.
  - apply IH. now apply seriesCached_serve.
Qed.

(** C2, amended: after any sequence of requests on a cache that started
    empty, every 200 answer of /api/sheet-data (cache hit, mock or fresh
    fetch) has a body of the shape [{ s: "ok", c: [numbers] }]. *)
Theorem C2_success_body_is_s_c (rs : list Request) (w : World) :
  let o := run (sheetData w) (serveAll ∅ rs) in
  statusCode (res o) = 200 ->
  hasShape "s" "c" (body (res o)).
Proof.
  intros o Hst. unfold o in *. clear o.
  pose proof (seriesCached_serveAll rs ∅ seriesCached_empty) as Hinv.
  destruct (sheetData_served w (serveAll ∅ rs)) as [Hhit| | | | ]; simpl in *;
    try discriminate.
  - unfold NodeCache.get in *.
    destruct (serveAll ∅ rs !! "sheetData") as [e|] eqn:He; [|discriminate].
    destruct (NodeCache.unexpired (now w) e); [|discriminate].
    destruct (Hinv e He) as [vs Hvs]. exists vs. now rewrite Hvs.
  - now eexists.
  - now eexists.
Qed.

(** A fetch of one data row, then a request inside the TTL window. *)
Lemma C2_success_body_witness :
  let w1 := exampleWorld None (rowsRead [["Date"; "Price"]; ["2024-01-01"; "100"]]) 1000 in
  let w2 := exampleWorld None noClientEmail 2000 in
  let o := run (sheetData w2) (serveAll ∅ [GetSheetData w1]) in
  statusCode (res o) = 200 /\ hasShape "s" "c" (body (res o)).
Proof.
  intros w1 w2 o.
  assert (Hst : statusCode (res o) = 200).
  { unfold o; simpl.
    destruct (sheetData_served w2 (cache (run (sheetData w1) ∅)))
      as [ | Hm | ? ? Hm | ? ? Hm | ? ? Hm ]; try reflexivity; exfalso;
      vm_compute in Hm; discriminate Hm. }
  split; [exact Hst|].
  exact (C2_success_body_is_s_c [GetSheetData w1] w2 Hst).
Defined.

(** ** C3: the formatter *)

Lemma pushRow_keptValue (c : list number) (row : Row) :
  pushRow c row = (c ++ option_list (keptValue notNaN row))%list.
Proof.
  unfold pushRow, keptValue, notNaN.
  destruct (row !! 1%nat) as [cell|]; simpl; [|now rewrite app_nil_r].
  destruct (String.eqb cell ""); simpl; [now rewrite app_nil_r|].
  destruct (isNaN (parseFloat cell)); simpl; [now rewrite app_nil_r|reflexivity].
Qed.

Lemma fold_pushRow (rows : list Row) (c : list number) :
  fold_left pushRow rows c = (c ++ omap (keptValue notNaN) rows)%list.
Proof.
  revert c. induction rows as [|row rows IH]; intros c; simpl.
  - now rewrite app_nil_r.
  - rewrite IH, pushRow_keptValue.
    destruct (keptValue notNaN row) as [x|]; simpl.
    + now rewrite <- app_assoc.
    + now rewrite app_nil_r.
Qed.

Lemma forEachRow_spec (rows : list Row) :
  forEachRow rows = omap (keptValue notNaN) rows.
Proof. unfold forEachRow. now rewrite fold_pushRow. Qed.

(** C3, as stated, fails: a cell reading [Infinity] parses to a value that
    is not finite, and line 87 only rejects NaN, so the row contributes. *)
Lemma C3_infinity_row_contributes :
  let rows := [["Date"; "Price"]; ["2024-01-01"; "Infinity"]; ["2024-01-02"; "7"]] in
  parseFloat "Infinity" = Infinity /\
  isFinite (parseFloat "Infinity") = false /\
  formattedData rows = series [Infinity; ofZ 7] /\
  specValues isFinite rows = [ofZ 7] /\
  formattedData rows <> series (specValues isFinite rows).
Proof.
  vm_compute. repeat split. discriminate.
Qed.

(** C3, amended: the value list is, in order, the leading-numeric-prefix
    parse of the cell at index 1 of each row after the first, restricted to
    rows where that cell is defined, non-empty and does not parse to NaN
    (so a cell parsing to an infinity is kept); the first row never matters;
    and a row whose cell is undefined, empty or parses to NaN contributes
    nothing. *)
Theorem C3_formatter_keeps_non_NaN :
  (forall values : list Row,
      formattedData values = series (specValues notNaN values)) /\
  (forall (header header' : Row) (rows : list Row),
      formattedData (header :: rows) = formattedData (header' :: rows)) /\
  (forall (before after : list Row) (row : Row),
      (row !! 1%nat = None \/ row !! 1%nat = Some "" \/
       exists cell, row !! 1%nat = Some cell /\ isNaN (parseFloat cell) = true) ->
      forEachRow (before ++ row :: after)%list = forEachRow (before ++ after)%list).
Proof.
  split; [|split].
  - intros values. unfold formattedData, specValues.
    rewrite forEachRow_spec. now destruct values.
  - reflexivity.
  - intros before after row Hrow.
    rewrite !forEachRow_spec, !omap_app; simpl.
    assert (Hk : keptValue notNaN row = None).
    { unfold keptValue, notNaN.
      destruct Hrow as [H|[H|(cell & H & Hnan)]]; rewrite H; try reflexivity.
      rewrite Hnan; simpl. now destruct (String.eqb cell ""). }
    now rewrite Hk.
Qed.

(** Scenario B of the specification. *)
Lemma C3_formatter_witness :
  let rows := [["Date"; "Price"]; ["2024-01-01"; "100"];
               ["2024-01-02"; "abc"]; ["2024-01-03"; ""]] in
  formattedData rows = series [ofZ 100] /\
  isNaN (parseFloat "abc") = true /\
  forEachRow ([["2024-01-01"; "100"]] ++ ["2024-01-02"; "abc"] :: [["2024-01-03"; ""]])%list
  = forEachRow ([["2024-01-01"; "100"]] ++ [["2024-01-03"; ""]])%list.
Proof.
  intros rows.
  destruct C3_formatter_keeps_non_NaN as (Heq & _ & Hskip).
  split; [rewrite Heq; reflexivity|]. split; [reflexivity|].
  apply Hskip. right; right. exists "abc". split; reflexivity.
Defined.

(** ** C4: a second request inside the TTL window *)

(** C4: when a first request fetched from upstream and answered 200 (so it
    stored its series), a second request arriving no later than 300 s after
    that store answers 200 with the same body, only reads the cache, calls
    nothing upstream and leaves the cache as it is. *)
Theorem C4_second_request_served_from_cache
    (w1 w2 : World) (c : NodeCache.store) :
  let o1 := run (sheetData w1) c in
  let o2 := run (sheetData w2) (cache o1) in
  calledUpstream o1 = true ->
  statusCode (res o1) = 200 ->
  now w2 <= later w1 + 300 * 1000 ->
  wroteCache o1 = true /\
  (exists b, body (res o1) = Some b /\
             cache o1 !! "sheetData"
             = Some {| NodeCache.v := b; NodeCache.t := later w1 + 300 * 1000 |}) /\
  body (res o2) = body (res o1) /\
  statusCode (res o2) = 200 /\
  calledUpstream o2 = false /\
  trace o2 = [CacheGet "sheetData"] /\
  cache o2 = cache o1.
Proof.
  intros o1 o2 Hup Hst Hwin. unfold o2. clear o2. unfold o1 in *. clear o1.
  destruct (sheetData_served w1 c) as [ | | | | sheets r Hm Hi Hg Hv ];
    simpl in *; try discriminate.
  set (b := formattedData (default [] (data_values r))).
  assert (Hget : NodeCache.get (NodeCache.set c "sheetData" b (later w1))
                   "sheetData" (now w2) = b).
  { unfold NodeCache.get, NodeCache.set. rewrite lookup_insert_eq.
    unfold NodeCache.unexpired; simpl.
    destruct (Z.leb_spec (now w2) (later w1 + NodeCache.stdTTL * 1000)) as [_|Hlt];
      [reflexivity | unfold NodeCache.stdTTL in Hlt; lia]. }
  rewrite sheetData_hit by (rewrite Hget; reflexivity).
  simpl. rewrite Hget. split; [reflexivity|]. split.
  - exists b. split; [reflexivity|]. unfold NodeCache.set. now rewrite lookup_insert_eq.
  - repeat split.
Qed.

Lemma C4_cache_hit_witness :
  let w1 := exampleWorld None (rowsRead [["Date"; "Price"]; ["2024-01-01"; "100"]]) 1000 in
  let w2 := exampleWorld None noClientEmail 301040 in
  let o1 := run (sheetData w1) ∅ in
  let o2 := run (sheetData w2) (cache o1) in
  calledUpstream o1 = true /\
  statusCode (res o1) = 200 /\
  now w2 <= later w1 + 300 * 1000 /\
  body (res o2) = Some (series [ofZ 100]) /\
  calledUpstream o2 = false.
Proof.
  intros w1 w2 o1 o2.
  assert (Ho1 : o1 = {| cache := NodeCache.set ∅ "sheetData" (series [ofZ 100]) 1040;
                        res := {| statusCode := 200; headers := [corsHeader];
                                  body := Some (series [ofZ 100]) |};
                        trace := [CacheGet "sheetData"; ValuesGet exampleSheets (params w1);
                                  CacheSet "sheetData" (series [ofZ 100])] |}).
  { unfold o1.
    rewrite (sheetData_fresh w1 ∅ exampleSheets (cacheMiss_absent ∅ w1 (lookup_empty _))
               eq_refl {| data_values := Some [["Date"; "Price"]; ["2024-01-01"; "100"]] |}
               eq_refl) by discriminate.
    reflexivity. }
  assert (Hup : calledUpstream o1 = true) by (rewrite Ho1; reflexivity).
  assert (Hst : statusCode (res o1) = 200) by (rewrite Ho1; reflexivity).
  assert (Hwin : now w2 <= later w1 + 300 * 1000) by (simpl; lia).
  destruct (C4_second_request_served_from_cache w1 w2 ∅ Hup Hst Hwin)
    as (_ & _ & Hb & _ & Hno & _).
  repeat split; assumption.
Defined.

(** ** C5, C10: no rows at all *)

(** C5: on a cache miss with a client, when the read succeeds with zero
    rows the answer is 404 [{error: "No data found in spreadsheet"}], the
    cache is what it was and nothing was stored. *)
Theorem C5_zero_rows_not_found
    (w : World) (c : NodeCache.store) (sheets : Sheets) (r : GetResponse) :
  cacheMiss c w ->
  initializeGoogleSheets (platform w) (env w) = Some sheets ->
  spreadsheets_values_get (platform w) sheets (params w) = Normal r ->
  data_values r = Some [] ->
  let o := run (sheetData w) c in
  statusCode (res o) = 404 /\
  body (res o) = Some (JObject [("error", JString "No data found in spreadsheet")]) /\
  cache o = c /\
  wroteCache o = false.
Proof.
  intros Hm Hi Hg Hv o. unfold o.
  rewrite (sheetData_empty w c sheets Hm Hi r Hg) by (rewrite Hv; reflexivity).
  repeat split.
Qed.

Lemma C5_zero_rows_witness :
  let w := exampleWorld None (rowsRead []) 1000 in
  cacheMiss ∅ w /\
  statusCode (res (run (sheetData w) ∅)) = 404 /\
  cache (run (sheetData w) ∅) = ∅.
Proof.
  intros w.
  assert (Hm : cacheMiss ∅ w) by apply cacheMiss_absent, lookup_empty.
  destruct (C5_zero_rows_not_found w ∅ exampleSheets {| data_values := Some [] |}
              Hm eq_refl eq_refl eq_refl) as (H1 & _ & H2 & _).
  repeat split; assumption.
Defined.

(** C10: when the read succeeds without a [values] field, line 67 puts the
    empty list in its place and the request ends exactly as in the
    zero-rows case: 404, the same body, the same calls, cache untouched. *)
Theorem C10_missing_values_not_found
    (w : World) (c : NodeCache.store) (sheets : Sheets) (r : GetResponse) :
  cacheMiss c w ->
  initializeGoogleSheets (platform w) (env w) = Some sheets ->
  spreadsheets_values_get (platform w) sheets (params w) = Normal r ->
  data_values r = None ->
  default [] (data_values r) = [] /\
  run (sheetData w) c =
    {| cache := c;
       res := {| statusCode := 404; headers := [];
                 body := Some (JObject [("error", JString "No data found in spreadsheet")]) |};
       trace := [CacheGet "sheetData"; ValuesGet sheets (params w)] |}.
Proof.
  intros Hm Hi Hg Hv.
  assert (Hd : default [] (data_values r) = []) by (rewrite Hv; reflexivity).
  split; [exact Hd|].
  exact (sheetData_empty w c sheets Hm Hi r Hg Hd).
Qed.

Lemma C10_missing_values_witness :
  let w := exampleWorld None (Normal {| data_values := None |}) 1000 in
  cacheMiss ∅ w /\
  res (run (sheetData w) ∅) = notFoundResponse.
Proof.
  intros w.
  assert (Hm : cacheMiss ∅ w) by apply cacheMiss_absent, lookup_empty.
  destruct (C10_missing_values_not_found w ∅ exampleSheets {| data_values := None |}
              Hm eq_refl eq_refl eq_refl) as (_ & H).
  split; [exact Hm|]. now rewrite H.
Defined.

(** ** C6: a header and nothing else *)

(** C6: on a cache miss with a client, when the read returns exactly one
    row the answer is a 200 with [{s: "ok", c: []}]; it is not the 404 of
    the zero-rows case. *)
Theorem C6_header_only_is_empty_success
    (w : World) (c : NodeCache.store) (sheets : Sheets) (r : GetResponse)
    (header : Row) :
  cacheMiss c w ->
  initializeGoogleSheets (platform w) (env w) = Some sheets ->
  spreadsheets_values_get (platform w) sheets (params w) = Normal r ->
  data_values r = Some [header] ->
  let o := run (sheetData w) c in
  statusCode (res o) = 200 /\
  body (res o) = Some (JObject [("s", JString "ok"); ("c", JArray [])]) /\
  statusCode (res o) <> 404 /\
  res o <> notFoundResponse.
Proof.
  intros Hm Hi Hg Hv o. unfold o.
  rewrite (sheetData_fresh w c sheets Hm Hi r Hg) by (rewrite Hv; discriminate).
  rewrite Hv; simpl. repeat split; discriminate.
Qed.

(** Scenario C of the specification. *)
Lemma C6_header_only_witness :
  let w := exampleWorld None (rowsRead [["Date"; "Price"]]) 1000 in
  cacheMiss ∅ w /\
  statusCode (res (run (sheetData w) ∅)) = 200 /\
  body (res (run (sheetData w) ∅)) = Some (series []).
Proof.
  intros w.
  assert (Hm : cacheMiss ∅ w) by apply cacheMiss_absent, lookup_empty.
  destruct (C6_header_only_is_empty_success w ∅ exampleSheets
              {| data_values := Some [["Date"; "Price"]] |} ["Date"; "Price"]
              Hm eq_refl eq_refl eq_refl) as (H1 & H2 & _).
  repeat split; assumption.
Defined.

(** ** C7: the upstream call fails *)

(** C7: on a cache miss with a client, when the read raises an error with
    message [m] the answer is 500
    [{error: "Failed to fetch data from Google Sheets", details: m}], the
    cache is what it was and nothing was stored. *)
Theorem C7_upstream_error_500
    (w : World) (c : NodeCache.store) (sheets : Sheets) (m : string) :
  cacheMiss c w ->
  initializeGoogleSheets (platform w) (env w) = Some sheets ->
  spreadsheets_values_get (platform w) sheets (params w) = Throw {| message := m |} ->
  let o := run (sheetData w) c in
  statusCode (res o) = 500 /\
  body (res o) = Some (JObject [("error", JString "Failed to fetch data from Google Sheets");
                                ("details", JString m)]) /\
  cache o = c /\
  wroteCache o = false.
Proof.
  intros Hm Hi Hg o. unfold o.
  rewrite (sheetData_error w c sheets Hm Hi _ Hg).
  repeat split.
Qed.

(** Scenario E of the specification. *)
Lemma C7_upstream_error_witness :
  let w := exampleWorld None (Throw {| message := "network error" |}) 1000 in
  cacheMiss ∅ w /\
  res (run (sheetData w) ∅) = errorResponse "network error" /\
  cache (run (sheetData w) ∅) = ∅.
Proof.
  intros w.
  assert (Hm : cacheMiss ∅ w) by apply cacheMiss_absent, lookup_empty.
  destruct (C7_upstream_error_500 w ∅ exampleSheets "network error"
              Hm eq_refl eq_refl) as (H1 & H2 & H3 & _).
  split; [exact Hm|]. split; [|exact H3].
  destruct (res (run (sheetData w) ∅)) as [st hs b] eqn:E.
  simpl in H1, H2. subst st b.
  assert (Hh : headers (res (run (sheetData w) ∅)) = []).
  { rewrite (sheetData_error w ∅ exampleSheets Hm eq_refl
               {| message := "network error" |} eq_refl). reflexivity. }
  rewrite E in Hh. simpl in Hh. now subst hs.
Defined.

(** ** C8: clearing the cache *)

(** C8: for every cache, /api/refresh-cache removes the "sheetData" key and
    nothing else, also when the key is absent (the cache is then what it
    was), and answers 200 [{status: "Cache cleared"}]; a second call right
    after leaves the same cache and gives the same answer. *)
Theorem C8_refresh_cache_idempotent (c : NodeCache.store) :
  let o := run refreshCache c in
  let o' := run refreshCache (cache o) in
  cache o = delete "sheetData" c /\
  cache o !! "sheetData" = None /\
  (forall k : string, k <> "sheetData" -> cache o !! k = c !! k) /\
  res o = okResponse (JObject [("status", JString "Cache cleared")]) /\
  (c !! "sheetData" = None -> cache o = c) /\
  cache o' = cache o /\
  res o' = res o.
Proof.
  intros o o'.
  assert (Ho : o = {| cache := delete "sheetData" c;
                      res := okResponse (JObject [("status", JString "Cache cleared")]);
                      trace := [CacheDel "sheetData"] |}) by reflexivity.
  assert (Ho' : o' = {| cache := delete "sheetData" (cache o);
                        res := okResponse (JObject [("status", JString "Cache cleared")]);
                        trace := [CacheDel "sheetData"] |}) by reflexivity.
  rewrite Ho', Ho; simpl.
  split; [reflexivity|]. split; [apply lookup_delete_eq|].
  split; [intros k Hk; now apply lookup_delete_ne|].
  split; [reflexivity|]. split; [apply delete_id|].
  split; [|reflexivity].
  apply delete_id, lookup_delete_eq.
Qed.

Lemma C8_refresh_cache_witness :
  (∅ : NodeCache.store) !! "sheetData" = None /\
  cache (run refreshCache ∅) = ∅ /\
  res (run refreshCache ∅) = okResponse (JObject [("status", JString "Cache cleared")]).
Proof.
  destruct (C8_refresh_cache_idempotent ∅) as (_ & _ & _ & Hr & Hid & _).
  split; [apply lookup_empty|]. split; [apply Hid, lookup_empty | exact Hr].
Defined.

(** ** C9: the cross-origin header *)

(** C9: the header [Access-Control-Allow-Origin: *] is on the answer
    exactly when the request stored a fresh series (then the answer is a
    200 after an upstream call); an answer from the cache, the mock answer,
    the 404 and the 500 carry no header at all; and there are two requests
    inside one TTL window with equal bodies, the first with the header and
    the second without. *)
Theorem C9_cors_header_only_on_fresh_fetch :
  (forall (w : World) (c : NodeCache.store),
      let o := run (sheetData w) c in
      (hasCors o <-> wroteCache o = true) /\
      (hasCors o -> statusCode (res o) = 200 /\ calledUpstream o = true) /\
      (truthy (NodeCache.get c "sheetData" (now w)) = true -> headers (res o) = []) /\
      (cacheMiss c w -> initializeGoogleSheets (platform w) (env w) = None ->
       headers (res o) = []) /\
      (statusCode (res o) = 404 -> headers (res o) = []) /\
      (statusCode (res o) = 500 -> headers (res o) = [])) /\
  (exists (w1 w2 : World) (c : NodeCache.store),
      let o1 := run (sheetData w1) c in
      let o2 := run (sheetData w2) (cache o1) in
      now w2 <= later w1 + 300 * 1000 /\
      body (res o2) = body (res o1) /\
      statusCode (res o2) = statusCode (res o1) /\
      hasCors o1 /\ ~ hasCors o2).
Proof.
  split.
  - intros w c o. unfold o. clear o. unfold hasCors, cacheMiss.
    destruct (sheetData_served w c) as [Hh | Hm Hi | ? ? Hm Hi | ? ? Hm Hi | ? ? Hm Hi];
      simpl; repeat split; try tauto; try congruence; try discriminate;
      try (intros [H|[]]; discriminate H).
  - exists (exampleWorld None (rowsRead [["Date"; "Price"]; ["2024-01-01"; "100"]]) 1000),
           (exampleWorld None noClientEmail 2000), ∅.
    vm_compute. repeat split; try discriminate.
    + now left.
    + intros [].
Qed.

Lemma C9_cors_header_witness :
  let w1 := exampleWorld None (rowsRead [["Date"; "Price"]; ["2024-01-01"; "100"]]) 1000 in
  let w2 := exampleWorld None noClientEmail 2000 in
  let c1 := cache (run (sheetData w1) ∅) in
  truthy (NodeCache.get c1 "sheetData" (now w2)) = true /\
  headers (res (run (sheetData w2) c1)) = [] /\
  hasCors (run (sheetData w1) ∅).
Proof.
  intros w1 w2 c1.
  destruct C9_cors_header_only_on_fresh_fetch as (Hall & _).
  assert (Hhit : truthy (NodeCache.get c1 "sheetData" (now w2)) = true)
    by (vm_compute; reflexivity).
  destruct (Hall w2 c1) as (_ & _ & Hcached & _).
  destruct (Hall w1 ∅) as (Hiff & _).
  split; [exact Hhit|]. split; [exact (Hcached Hhit)|].
  apply Hiff. vm_compute. reflexivity.
Defined.

(** * Further properties of the code *)

(** ** Numbers: a decimal literal never yields NaN *)

Lemma shr_1_nonneg (mrs : shr_record) :
  0 <= shr_m mrs -> 0 <= shr_m (shr_1 mrs).
Proof.
  destruct mrs as [m r s]; simpl. intros Hm.
  destruct m as [|[p|p|]|p]; simpl; lia.
Qed.

Lemma iter_shr_1_nonneg (p : positive) (mrs : shr_record) :
  0 <= shr_m mrs -> 0 <= shr_m (SpecFloat.iter_pos shr_1 p mrs).
Proof.
  revert mrs. induction p as [p IH|p IH|]; intros mrs Hm; simpl.
  - apply IH, IH, shr_1_nonneg, Hm.
  - apply IH, IH, Hm.
  - apply shr_1_nonneg, Hm.
Qed.

Lemma shr_fexp_nonneg (m e : Z) (l : location) :
  0 <= m -> 0 <= shr_m (fst (shr_fexp prec emax m e l)).
Proof.
  intros Hm. unfold shr_fexp, shr.
  assert (H0 : 0 <= shr_m (shr_record_of_loc m l))
    by (destruct l as [|[]]; exact Hm).
  destruct (fexp prec emax (Zdigits2 m + e) - e) as [|p|p]; simpl;
    try exact H0.
  apply iter_shr_1_nonneg, H0.
Qed.

Lemma round_nearest_even_nonneg (m : Z) (l : location) :
  0 <= m -> 0 <= round_nearest_even m l.
Proof.
  intros Hm. unfold round_nearest_even.
  destruct l as [|[]]; try destruct (Z.even m); lia.
Qed.

Lemma binary_round_aux_notNaN (sx : bool) (m e : Z) (l : location) :
  0 <= m -> isNaN (binary_round_aux prec emax sx m e l) = false.
Proof.
  intros Hm. unfold binary_round_aux.
  pose proof (shr_fexp_nonneg m e l Hm) as H1.
  destruct (shr_fexp prec emax m e l) as [mrs' e'] eqn:E1. simpl in H1.
  pose proof (shr_fexp_nonneg
                (round_nearest_even (shr_m mrs') (loc_of_shr_record mrs'))
                e' loc_Exact (round_nearest_even_nonneg _ _ H1)) as H2.
  destruct (shr_fexp prec emax _ e' loc_Exact) as [mrs'' e''] eqn:E2.
  simpl in H2.
  destruct (shr_m mrs'') as [|q|q]; [reflexivity| |lia].
  destruct (e'' <=? emax - prec); reflexivity.
Qed.

Lemma binary_round_notNaN (sx : bool) (p : positive) (e : Z) :
  isNaN (binary_round prec emax sx p e) = false.
Proof.
  unfold binary_round.
  destruct (shl_align p e _) as [mz ez].
  apply binary_round_aux_notNaN. lia.
Qed.

Lemma ofDecimal_notNaN (neg : bool) (m e : Z) :
  isNaN (ofDecimal neg m e) = false.
Proof.
  unfold ofDecimal. destruct m as [|p|p]; try reflexivity.
  destruct (0 <=? e); [apply binary_round_notNaN|].
  unfold SFdiv, SFdiv_core_binary.
  set (d := Z.to_pos (10 ^ (- e))).
  set (e' := Z.min _ _).
  set (m' := match 0 - 0 - e' with Z0 => Z.pos p | Zpos _ => _ | Zneg _ => 0 end).
  assert (Hm' : 0 <= m').
  { unfold m'. destruct (0 - 0 - e'); try lia.
    apply Z.shiftl_nonneg. lia. }
  pose proof (Z.div_pos m' (Z.pos d) Hm' ltac:(lia)) as Hq.
  unfold Z.div in Hq.
  destruct (Z.div_eucl m' (Z.pos d)) as [q r]. simpl in Hq.
  apply binary_round_aux_notNaN, Hq.
Qed.

(** ** [parseFloat]: which first characters decide the outcome *)

Lemma digit_bounds (a : ascii) (d : Z) : digit a = Some d -> 0 <= d <= 9.
Proof.
  unfold digit. destruct ((48 <=? code a) && (code a <=? 57)) eqn:E; [|discriminate].
  intros [= <-]. apply andb_true_iff in E as [H1 H2]. lia.
Qed.

Lemma digit_lead (a : ascii) (d : Z) :
  digit a = Some d ->
  isWhiteSpace a = false /\ Ascii.eqb a "+" = false /\ Ascii.eqb a "-" = false /\
  Ascii.eqb "I" a = false.
Proof.
  destruct a as [[] [] [] [] [] [] [] []]; vm_compute; intros H;
    try discriminate H; repeat split.
Qed.

Lemma spanDigits_nonneg (s : list ascii) :
  Forall (fun d => 0 <= d) (fst (spanDigits s)).
Proof.
  induction s as [|a s IH]; simpl; [constructor|].
  destruct (digit a) as [d|] eqn:Ed; [|constructor].
  destruct (spanDigits s) as [ds rest]; simpl in *.
  constructor; [apply (digit_bounds a d Ed)|exact IH].
Qed.

Lemma trimStart_whiteSpace (a : ascii) (s : list ascii) :
  isWhiteSpace a = true -> trimStart (a :: s) = trimStart s.
Proof. intros H. simpl. now rewrite H. Qed.

(** A literal that starts with a digit has a value. *)
Lemma unsignedLiteral_digit_notNaN (neg : bool) (a : ascii) (d : Z) (s : list ascii) :
  digit a = Some d -> isNaN (unsignedLiteral neg (a :: s)) = false.
Proof.
  intros Hd. destruct (digit_lead a d Hd) as (_ & _ & _ & HI).
  unfold unsignedLiteral.
  change (startsWith (list_ascii_of_string "Infinity") (a :: s))
    with (Ascii.eqb "I" a && startsWith (list_ascii_of_string "nfinity") s).
  rewrite HI; simpl. rewrite Hd.
  destruct (spanDigits s) as [ds r1].
  destruct r1 as [|dot r2].
  - apply ofDecimal_notNaN.
  - destruct (Ascii.eqb dot ".").
    + destruct (spanDigits r2) as [fp r3]. apply ofDecimal_notNaN.
    + apply ofDecimal_notNaN.
Qed.

Lemma parseFloat_digit_notNaN (a : ascii) (d : Z) (rest : string) :
  digit a = Some d -> isNaN (parseFloat (String a rest)) = false.
Proof.
  intros Hd. destruct (digit_lead a d Hd) as (Hw & Hp & Hm & _).
  unfold parseFloat; simpl. rewrite Hw, Hp, Hm.
  now apply unsignedLiteral_digit_notNaN with (d := d).
Qed.

(** A text whose first character can start no literal has none. *)
Lemma parseFloat_no_literal (a : ascii) (rest : string) :
  isWhiteSpace a = false -> digit a = None ->
  Ascii.eqb a "+" = false -> Ascii.eqb a "-" = false ->
  Ascii.eqb a "." = false -> Ascii.eqb a "I" = false ->
  parseFloat (String a rest) = NaN.
Proof.
  intros Hw Hd Hp Hm Hdot HI.
  unfold parseFloat; simpl. rewrite Hw, Hp, Hm.
  unfold unsignedLiteral.
  change (startsWith (list_ascii_of_string "Infinity") (a :: list_ascii_of_string rest))
    with (Ascii.eqb "I" a && startsWith (list_ascii_of_string "nfinity")
                                        (list_ascii_of_string rest)).
  rewrite Ascii.eqb_sym, HI; simpl. rewrite Hd, Hdot. reflexivity.
Qed.

Lemma parseFloat_skips_whiteSpace (a : ascii) (rest : string) :
  isWhiteSpace a = true -> parseFloat (String a rest) = parseFloat rest.
Proof. intros Hw. unfold parseFloat; simpl. now rewrite Hw. Qed.

Lemma parseFloat_empty : parseFloat "" = NaN.
Proof. reflexivity. Qed.

(** ** The formatter, row by row *)

Lemma forEachRow_app (rows rows' : list Row) :
  forEachRow (rows ++ rows')%list = (forEachRow rows ++ forEachRow rows')%list.
Proof. rewrite !forEachRow_spec. apply omap_app. Qed.

Lemma keptValue_notNaN (row : Row) (x : number) :
  keptValue notNaN row = Some x -> isNaN x = false.
Proof.
  unfold keptValue, notNaN.
  destruct (row !! 1%nat) as [cell|]; [|discriminate].
  destruct (String.eqb cell ""); [discriminate|].
  destruct (isNaN (parseFloat cell)) eqn:E; simpl; [discriminate|].
  now intros [= <-].
Qed.

Lemma forEachRow_notNaN (rows : list Row) :
  Forall (fun x => isNaN x = false) (forEachRow rows).
Proof.
  rewrite forEachRow_spec.
  induction rows as [|row rows IH]; simpl; [constructor|].
  destruct (keptValue notNaN row) as [x|] eqn:E; simpl; [|exact IH].
  constructor; [now apply keptValue_notNaN with (row := row)|exact IH].
Qed.

Lemma forEachRow_length (rows : list Row) :
  (length (forEachRow rows) <= length rows)%nat.
Proof.
  rewrite forEachRow_spec.
  induction rows as [|row rows IH]; [reflexivity|].
  change (omap (keptValue notNaN) (row :: rows))
    with (match keptValue notNaN row with
          | Some x => x :: omap (keptValue notNaN) rows
          | None => omap (keptValue notNaN) rows
          end).
  destruct (keptValue notNaN row); cbn [length]; lia.
Qed.

Lemma keptValue_columnB (row row' : Row) :
  columnB row = columnB row' -> keptValue notNaN row = keptValue notNaN row'.
Proof. unfold columnB, keptValue. now intros ->. Qed.

(** X1: formatting is row-wise: the values of a concatenation of row
    blocks are the values of the first block followed by those of the
    second, so the relative order of the rows is the order of the values. *)
Theorem X1_formatter_distributes_over_append (rows rows' : list Row) :
  forEachRow (rows ++ rows')%list = (forEachRow rows ++ forEachRow rows')%list.
Proof. apply forEachRow_app. Qed.

(** X2: the formatted body of any read is a series with at most one value
    per row after the first, none of which is NaN. *)
Theorem X2_formatted_series_is_bounded_and_clean (values : list Row) :
  exists vs : list number,
    formattedData values = series vs /\
    (length vs <= length values - 1)%nat /\
    Forall (fun x => isNaN x = false) vs.
Proof.
  exists (forEachRow (drop 1 values)). split; [reflexivity|]. split.
  - pose proof (forEachRow_length (drop 1 values)) as H.
    rewrite length_drop in H. exact H.
  - apply forEachRow_notNaN.
Qed.

(** X3: only column B matters: two row lists whose cells at index 1 agree
    row by row (whatever the other columns hold, and however many there
    are) format to the same values. *)
Theorem X3_formatter_reads_only_column_B (rows rows' : list Row) :
  columnB <$> rows = columnB <$> rows' ->
  forEachRow rows = forEachRow rows'.
Proof.
  rewrite !forEachRow_spec. revert rows'.
  induction rows as [|row rows IH]; intros [|row' rows'] H;
    try discriminate H; [reflexivity|].
  injection H as Hb Hrest.
  change (omap (keptValue notNaN) (row :: rows))
    with (match keptValue notNaN row with
          | Some x => x :: omap (keptValue notNaN) rows
          | None => omap (keptValue notNaN) rows
          end).
  change (omap (keptValue notNaN) (row' :: rows'))
    with (match keptValue notNaN row' with
          | Some x => x :: omap (keptValue notNaN) rows'
          | None => omap (keptValue notNaN) rows'
          end).
  rewrite (keptValue_columnB row row' Hb), (IH rows' Hrest). reflexivity.
Qed.

Lemma X3_formatter_column_B_witness :
  columnB <$> [["2024-01-01"; "100"; "note"]; ["2024-01-02"]]
  = columnB <$> [["x"; "100"]; []] /\
  forEachRow [["2024-01-01"; "100"; "note"]; ["2024-01-02"]]
  = forEachRow [["x"; "100"]; []].
Proof.
  assert (H : columnB <$> [["2024-01-01"; "100"; "note"]; ["2024-01-02"]]
              = columnB <$> [["x"; "100"]; []]) by reflexivity.
  split; [exact H|].
  exact (X3_formatter_reads_only_column_B _ _ H).
Defined.

(** X4: a row whose column B starts with a decimal digit always
    contributes a value, the parse of its numeric prefix, whatever follows
    the digits (so a date such as 2024-01-01 in column B counts as 2024). *)
Theorem X4_digit_led_cell_is_kept
    (c : list number) (row : Row) (a : ascii) (rest : string) :
  columnB row = Some (String a rest) ->
  digit a <> None ->
  pushRow c row = (c ++ [parseFloat (String a rest)])%list /\
  isNaN (parseFloat (String a rest)) = false.
Proof.
  intros Hb Hd. destruct (digit a) as [d|] eqn:Ed; [clear Hd|congruence].
  pose proof (parseFloat_digit_notNaN a d rest Ed) as Hn.
  split; [|exact Hn].
  unfold pushRow. unfold columnB in Hb. rewrite Hb; simpl. now rewrite Hn.
Qed.

Lemma X4_digit_led_witness :
  columnB ["Date"; "2024-01-01"] = Some "2024-01-01" /\
  digit "2" <> None /\
  pushRow [] ["Date"; "2024-01-01"] = [ofZ 2024].
Proof.
  assert (Hb : columnB ["Date"; "2024-01-01"] = Some "2024-01-01") by reflexivity.
  assert (Hd : digit "2" <> None) by discriminate.
  destruct (X4_digit_led_cell_is_kept [] ["Date"; "2024-01-01"] "2" "024-01-01" Hb Hd)
    as (Hp & _).
  split; [exact Hb|]. split; [exact Hd|]. rewrite Hp. reflexivity.
Defined.

(** X5: a row whose column B starts with a character that is neither
    white space, a digit, a sign, a dot nor the letter I (a currency sign,
    a letter, a quote, ...) contributes nothing. *)
Theorem X5_non_numeric_lead_is_skipped
    (c : list number) (row : Row) (a : ascii) (rest : string) :
  columnB row = Some (String a rest) ->
  isWhiteSpace a = false -> digit a = None ->
  a <> "+"%char -> a <> "-"%char -> a <> "."%char -> a <> "I"%char ->
  parseFloat (String a rest) = NaN /\ pushRow c row = c.
Proof.
  intros Hb Hw Hd Hp Hm Hdot HI.
  assert (Hn : parseFloat (String a rest) = NaN)
    by (apply parseFloat_no_literal; try assumption; now apply Ascii.eqb_neq).
  split; [exact Hn|].
  unfold pushRow. unfold columnB in Hb. rewrite Hb; simpl. now rewrite Hn.
Qed.

Lemma X5_non_numeric_lead_witness :
  columnB ["2024-01-01"; "$100"] = Some "$100" /\
  pushRow [ofZ 1] ["2024-01-01"; "$100"] = [ofZ 1].
Proof.
  assert (Hb : columnB ["2024-01-01"; "$100"] = Some "$100") by reflexivity.
  split; [exact Hb|].
  apply (X5_non_numeric_lead_is_skipped [ofZ 1] ["2024-01-01"; "$100"] "$" "100" Hb);
    try reflexivity; discriminate.
Defined.

(** X6: white space in front of a cell's text does not change what the
    row contributes: the cell with one more leading white-space character
    is treated exactly as the cell without it. *)
Theorem X6_leading_white_space_is_ignored
    (c : list number) (row row' : Row) (a : ascii) (cell : string) :
  isWhiteSpace a = true ->
  columnB row = Some (String a cell) ->
  columnB row' = Some cell ->
  pushRow c row = pushRow c row'.
Proof.
  intros Hw Hb Hb'. unfold pushRow. unfold columnB in *. rewrite Hb, Hb'; simpl.
  rewrite (parseFloat_skips_whiteSpace a cell Hw).
  destruct cell as [|b cell']; simpl; [|reflexivity].
  reflexivity.
Qed.

Lemma X6_leading_white_space_witness :
  isWhiteSpace " " = true /\
  pushRow [] ["d"; " 3.5"] = pushRow [] ["d"; "3.5"].
Proof.
  split; [reflexivity|].
  apply (X6_leading_white_space_is_ignored [] ["d"; " 3.5"] ["d"; "3.5"] " " "3.5");
    reflexivity.
Defined.

(** ** The /api/sheet-data handler as a whole *)

Lemma sheetData_completes (w : World) (s : Ctx) :
  fst (sheetData w s) = Normal tt.
Proof.
  unfold sheetData, tryCatch, mbind, Handler_bind, cache_get, values_get; simpl.
  destruct (truthy (NodeCache.get (cache s) "sheetData" (now w))); [reflexivity|].
  destruct (initializeGoogleSheets (platform w) (env w)) as [sheets|]; [|reflexivity].
  simpl.
  destruct (spreadsheets_values_get (platform w) sheets _) as [r|e]; [|reflexivity].
  destruct (default [] (data_values r)); reflexivity.
Qed.

(** X7: the handler never lets an exception escape and always sends a
    body, with status 200, 404 or 500; an answer other than 200 is an
    object whose first field is [error], and it leaves the cache as it
    was. *)
Theorem X7_sheet_data_always_answers (w : World) (c : NodeCache.store) :
  let r := sheetData w {| cache := c; res := freshRes; trace := [] |} in
  fst r = Normal tt /\
  (exists b, body (res (snd r)) = Some b) /\
  (statusCode (res (snd r)) = 200 \/ statusCode (res (snd r)) = 404 \/
   statusCode (res (snd r)) = 500) /\
  (statusCode (res (snd r)) <> 200 ->
   cache (snd r) = c /\
   exists msg rest,
     body (res (snd r)) = Some (JObject (("error", JString msg) :: rest))).
Proof.
  intros r. split; [apply sheetData_completes|].
  change (snd r) with (run (sheetData w) c).
  destruct (sheetData_served w c); simpl.
  - split; [eauto|]. split; [now left|]. congruence.
  - split; [eauto|]. split; [now left|]. congruence.
  - split; [eauto|]. split; [now right; right|]. intros _. split; [reflexivity|]. eauto.
  - split; [eauto|]. split; [now right; left|]. intros _. split; [reflexivity|]. eauto.
  - split; [eauto|]. split; [now left|]. congruence.
Qed.

Lemma X7_sheet_data_answers_witness :
  let w := exampleWorld None noClientEmail 1000 in
  statusCode (res (run (sheetData w) ∅)) <> 200 /\
  cache (run (sheetData w) ∅) = ∅.
Proof.
  intros w.
  assert (Hne : statusCode (res (run (sheetData w) ∅)) <> 200)
    by (vm_compute; discriminate).
  destruct (X7_sheet_data_always_answers w ∅) as (_ & _ & _ & H).
  split; [exact Hne|]. exact (proj1 (H Hne)).
Defined.

(** X8: a request first reads the cache and then makes at most one
    upstream read, always for the sheet id of SHEET_ID and the range of
    SHEET_RANGE, where an unset or empty SHEET_RANGE stands for
    [Sheet1!A:B]. *)
Theorem X8_at_most_one_upstream_read (w : World) (c : NodeCache.store) :
  let o := run (sheetData w) c in
  head (trace o) = Some (CacheGet "sheetData") /\
  (List.filter isValuesGet (trace o) = [] \/
   exists sheets,
     initializeGoogleSheets (platform w) (env w) = Some sheets /\
     List.filter isValuesGet (trace o) =
       [ValuesGet sheets
          {| spreadsheetId := SHEET_ID (env w);
             range := match SHEET_RANGE (env w) with
                      | Some "" | None => "Sheet1!A:B"
                      | Some r => r
                      end |}]).
Proof.
  intros o. unfold o.
  assert (Hp : params w =
               {| spreadsheetId := SHEET_ID (env w);
                  range := match SHEET_RANGE (env w) with
                           | Some "" | None => "Sheet1!A:B"
                           | Some r => r
                           end |}).
  { unfold params, orDefault. destruct (SHEET_RANGE (env w)) as [[|a r]|]; reflexivity. }
  destruct (sheetData_served w c) as [ | | sh ? ? Hi | sh ? ? Hi | sh ? ? Hi ]; simpl;
    (split; [reflexivity|]); try (now left);
    right; exists sh; (split; [exact Hi|]); now rewrite Hp.
Qed.

(** X9: what the handler stores is what it sends: after a request the
    cache is either untouched, or the "sheetData" entry is exactly the body
    of the 200 answer, expiring 300 s after the store. *)
Theorem X9_cache_holds_what_was_sent (w : World) (c : NodeCache.store) :
  let o := run (sheetData w) c in
  (wroteCache o = false /\ cache o = c) \/
  (wroteCache o = true /\
   exists b,
     body (res o) = Some b /\ statusCode (res o) = 200 /\
     cache o = <["sheetData" := {| NodeCache.v := b;
                                   NodeCache.t := later w + 300 * 1000 |}]> c).
Proof.
  intros o. unfold o.
  destruct (sheetData_served w c); simpl; try (left; split; reflexivity).
  right. split; [reflexivity|]. eexists. repeat split.
Qed.

(** ** The cache across requests *)

Lemma serve_frame (c : NodeCache.store) (r : Request) (k : string) :
  k <> "sheetData" -> cache (serve c r) !! k = c !! k.
Proof.
  intros Hk. destruct r as [w|]; simpl.
  - destruct (sheetData_served w c); simpl; try reflexivity.
    unfold NodeCache.set. now apply lookup_insert_ne.
  - change (cache (run refreshCache c)) with (delete "sheetData" c).
    now apply lookup_delete_ne.
Qed.

Lemma serveAll_frame (rs : list Request) (c : NodeCache.store) (k : string) :
  k <> "sheetData" -> serveAll c rs !! k = c !! k.
Proof.
  intros Hk. revert c. induction rs as [|r rs IH]; intros c; simpl; [reflexivity|].
  change (fold_left (fun c0 r0 => cache (serve c0 r0)) rs (cache (serve c r)))
    with (serveAll (cache (serve c r)) rs).
  rewrite IH. now apply serve_frame.
Qed.

(** X10: the two routes never create, change or remove a key other than
    "sheetData"; a cache that starts empty therefore never holds any other
    key, whatever requests arrive. *)
Theorem X10_only_the_sheetData_key (rs : list Request) :
  (forall (c : NodeCache.store) (k : string),
      k <> "sheetData" -> serveAll c rs !! k = c !! k) /\
  dom (serveAll ∅ rs) ⊆ ({["sheetData"]} : gset string).
Proof.
  split.
  - intros c k Hk. now apply serveAll_frame.
  - intros k Hk. apply elem_of_dom in Hk as [e He].
    apply elem_of_singleton.
    destruct (decide (k = "sheetData")) as [->|Hne]; [reflexivity|].
    rewrite serveAll_frame, lookup_empty in He by exact Hne. discriminate.
Qed.

Lemma X10_only_the_sheetData_key_witness :
  let w := exampleWorld None (rowsRead [["Date"; "Price"]; ["2024-01-01"; "100"]]) 1000 in
  "other" <> "sheetData" /\
  serveAll ∅ [GetSheetData w; GetRefreshCache; GetSheetData w] !! "other" = None.
Proof.
  intros w.
  assert (Hne : "other" <> "sheetData") by discriminate.
  split; [exact Hne|].
  destruct (X10_only_the_sheetData_key [GetSheetData w; GetRefreshCache; GetSheetData w])
    as (H & _).
  rewrite (H ∅ "other" Hne). apply lookup_empty.
Defined.

Lemma mockData_clean : cleanSeries (Some mockData).
Proof.
  exists (ofZ <$> [100; 105; 95; 110; 115; 105; 100; 90; 95; 120]).
  split; [reflexivity|]. repeat constructor.
Qed.

Lemma formattedData_clean (values : list Row) :
  cleanSeries (Some (formattedData values)).
Proof.
  exists (forEachRow (drop 1 values)). split; [reflexivity|apply forEachRow_notNaN].
Qed.

Lemma cleanCached_serve (c : NodeCache.store) (r : Request) :
  cleanCached c -> cleanCached (cache (serve c r)).
Proof.
  intros Hc. destruct r as [w|]; simpl.
  - destruct (sheetData_served w c); simpl; try exact Hc.
    intros e He. unfold NodeCache.set in He.
    rewrite lookup_insert_eq in He. injection He as <-. simpl.
    apply formattedData_clean.
  - intros e He. unfold run, refreshCache, mbind, Handler_bind, cache_del in He.
    simpl in He. unfold NodeCache.del in He.
    rewrite lookup_delete_eq in He. discriminate.
Qed.

Lemma cleanCached_serveAll (rs : list Request) (c : NodeCache.store) :
  cleanCached c -> cleanCached (serveAll c rs).
Proof.
  revert c. induction rs as [|r rs IH]; intros c Hc; simpl; [exact Hc|].
  apply IH. now apply cleanCached_serve.
Qed.

(** X11: NaN is never served: after any sequence of requests on a cache
    that started empty, the body of every 200 answer (from the cache, the
    mock or a fresh read) is a series without a NaN among its values. *)
Theorem X11_no_NaN_is_ever_served (rs : list Request) (w : World) :
  let o := run (sheetData w) (serveAll ∅ rs) in
  statusCode (res o) = 200 -> cleanSeries (body (res o)).
Proof.
  intros o Hst. unfold o in *. clear o.
  assert (Hinv : cleanCached (serveAll ∅ rs)).
  { apply cleanCached_serveAll. intros e He. rewrite lookup_empty in He. discriminate. }
  destruct (sheetData_served w (serveAll ∅ rs)) as [Hhit| | | | ]; simpl in *;
    try discriminate.
  - unfold NodeCache.get in *.
    destruct (serveAll ∅ rs !! "sheetData") as [e|] eqn:He; [|discriminate].
    destruct (NodeCache.unexpired (now w) e); [|discriminate].
    exact (Hinv e He).
  - apply mockData_clean.
  - apply formattedData_clean.
Qed.

Lemma X11_no_NaN_witness :
  let w1 := exampleWorld None (rowsRead [["Date"; "Price"]; ["d1"; "abc"]; ["d2"; "7"]]) 1000 in
  let w2 := exampleWorld None noClientEmail 2000 in
  let o := run (sheetData w2) (serveAll ∅ [GetSheetData w1]) in
  statusCode (res o) = 200 /\ body (res o) = Some (series [ofZ 7]) /\
  cleanSeries (body (res o)).
Proof.
  intros w1 w2 o.
  assert (Hst : statusCode (res o) = 200) by (vm_compute; reflexivity).
  split; [exact Hst|]. split; [vm_compute; reflexivity|].
  exact (X11_no_NaN_is_ever_served [GetSheetData w1] w2 Hst).
Defined.

Lemma cacheMiss_after_delete (c : NodeCache.store) (w : World) :
  cacheMiss (delete "sheetData" c) w.
Proof. apply cacheMiss_absent, lookup_delete_eq. Qed.

Lemma miss_not_from_cache (w : World) (c : NodeCache.store) :
  cacheMiss c w ->
  (initializeGoogleSheets (platform w) (env w) = None /\
   res (run (sheetData w) c) = okResponse mockData) \/
  calledUpstream (run (sheetData w) c) = true.
Proof.
  intros Hm.
  destruct (sheetData_served w c) as [Hh|? Hi| | | ]; simpl;
    try (right; reflexivity).
  - unfold cacheMiss in Hm. congruence.
  - left. split; [exact Hi|reflexivity].
Qed.

(** X12: while a usable entry is cached the answer depends on the cache and
    the clock alone: two requests at the same time against the same cache
    get the same outcome whatever the environment variables, the
    credentials or the state of the spreadsheet API, and neither calls
    upstream. *)
Theorem X12_cache_hit_ignores_configuration
    (w w' : World) (c : NodeCache.store) :
  truthy (NodeCache.get c "sheetData" (now w)) = true ->
  sameClock w w' ->
  run (sheetData w) c = run (sheetData w') c /\
  calledUpstream (run (sheetData w') c) = false.
Proof.
  intros Hhit Hclock. unfold sameClock in Hclock.
  assert (Hhit' : truthy (NodeCache.get c "sheetData" (now w')) = true)
    by (rewrite <- Hclock; exact Hhit).
  rewrite (sheetData_hit w c Hhit), (sheetData_hit w' c Hhit'), Hclock.
  split; reflexivity.
Qed.

Lemma X12_cache_hit_witness :
  let w1 := exampleWorld None (rowsRead [["Date"; "Price"]; ["2024-01-01"; "100"]]) 1000 in
  let c := cache (run (sheetData w1) ∅) in
  let w := exampleWorld None noClientEmail 2000 in
  let w' := exampleWorld (Some "not json") (rowsRead []) 2000 in
  truthy (NodeCache.get c "sheetData" (now w)) = true /\
  sameClock w w' /\
  run (sheetData w) c = run (sheetData w') c.
Proof.
  intros w1 c w w'.
  assert (Hh : truthy (NodeCache.get c "sheetData" (now w)) = true)
    by (vm_compute; reflexivity).
  assert (Hc : sameClock w w') by reflexivity.
  split; [exact Hh|]. split; [exact Hc|].
  exact (proj1 (X12_cache_hit_ignores_configuration w w' c Hh Hc)).
Defined.

(** X13: after /api/refresh-cache the next /api/sheet-data request is
    never answered from the cache: either no client can be built and the
    mock is sent, or the spreadsheet API is called. *)
Theorem X13_refresh_forces_a_new_read (c : NodeCache.store) (w : World) :
  let o := run (sheetData w) (cache (run refreshCache c)) in
  (initializeGoogleSheets (platform w) (env w) = None /\
   res o = okResponse mockData) \/
  calledUpstream o = true.
Proof.
  intros o. unfold o.
  change (cache (run refreshCache c)) with (delete "sheetData" c).
  apply miss_not_from_cache, cacheMiss_after_delete.
Qed.

(** X14: a stored series is not served past its expiry: when a first
    request fetched and answered 200, a request arriving more than 300 s
    after that store is not answered from the cache (it gets the mock when
    no client can be built, and otherwise goes upstream again). *)
Theorem X14_expired_entry_is_not_served
    (w1 w2 : World) (c : NodeCache.store) :
  let o1 := run (sheetData w1) c in
  let o2 := run (sheetData w2) (cache o1) in
  calledUpstream o1 = true ->
  statusCode (res o1) = 200 ->
  later w1 + 300 * 1000 < now w2 ->
  NodeCache.get (cache o1) "sheetData" (now w2) = JUndefined /\
  ((initializeGoogleSheets (platform w2) (env w2) = None /\
    res o2 = okResponse mockData) \/
   calledUpstream o2 = true).
Proof.
  intros o1 o2 Hup Hst Hlate. unfold o2. clear o2. unfold o1 in *. clear o1.
  destruct (sheetData_served w1 c) as [ | | | | sheets r Hm Hi Hg Hv ];
    simpl in *; try discriminate.
  set (b := formattedData (default [] (data_values r))).
  assert (Hget : NodeCache.get (NodeCache.set c "sheetData" b (later w1))
                   "sheetData" (now w2) = JUndefined).
  { unfold NodeCache.get, NodeCache.set. rewrite lookup_insert_eq.
    unfold NodeCache.unexpired; simpl.
    destruct (Z.leb_spec (now w2) (later w1 + NodeCache.stdTTL * 1000)) as [Hle|_];
      [unfold NodeCache.stdTTL in Hle; lia | reflexivity]. }
  split; [exact Hget|].
  apply miss_not_from_cache. unfold cacheMiss. now rewrite Hget.
Qed.

Lemma X14_expired_entry_witness :
  let w1 := exampleWorld None (rowsRead [["Date"; "Price"]; ["2024-01-01"; "100"]]) 1000 in
  let w2 := exampleWorld None (rowsRead [["Date"; "Price"]; ["2024-01-01"; "101"]]) 301041 in
  let o1 := run (sheetData w1) ∅ in
  let o2 := run (sheetData w2) (cache o1) in
  calledUpstream o1 = true /\
  statusCode (res o1) = 200 /\
  later w1 + 300 * 1000 < now w2 /\
  body (res o2) = Some (series [ofZ 101]) /\
  NodeCache.get (cache o1) "sheetData" (now w2) = JUndefined.
Proof.
  intros w1 w2 o1 o2.
  assert (Hup : calledUpstream o1 = true) by (vm_compute; reflexivity).
  assert (Hst : statusCode (res o1) = 200) by (vm_compute; reflexivity).
  assert (Hlate : later w1 + 300 * 1000 < now w2) by (simpl; lia).
  destruct (X14_expired_entry_is_not_served w1 w2 ∅ Hup Hst Hlate) as (Hget & _).
  split; [exact Hup|]. split; [exact Hst|]. split; [exact Hlate|].
  split; [vm_compute; reflexivity | exact Hget].
Defined.

Lemma initializeGoogleSheets_default_text (P : Platform) (e e' : Env) :
  orDefault (GOOGLE_CREDENTIALS e) "{}" = orDefault (GOOGLE_CREDENTIALS e') "{}" ->
  initializeGoogleSheets P e = initializeGoogleSheets P e'.
Proof. intros H. unfold initializeGoogleSheets. now rewrite H. Qed.

(** X15: for the handler an unset GOOGLE_CREDENTIALS, an empty one and the
    text [{}] are the same configuration: with everything else equal the
    request has the same outcome (response, cache and calls). *)
Theorem X15_unset_empty_and_braces_agree
    (g g' : option string) (w : World) (c : NodeCache.store) :
  (g = None \/ g = Some "" \/ g = Some "{}") ->
  (g' = None \/ g' = Some "" \/ g' = Some "{}") ->
  run (sheetData (withCredentials g w)) c = run (sheetData (withCredentials g' w)) c.
Proof.
  intros Hg Hg'.
  assert (Hi : initializeGoogleSheets (platform w) (env (withCredentials g w))
               = initializeGoogleSheets (platform w) (env (withCredentials g' w))).
  { apply initializeGoogleSheets_default_text; simpl.
    destruct Hg as [->|[->| ->]], Hg' as [->|[->| ->]]; reflexivity. }
  unfold run, sheetData, tryCatch, mbind, Handler_bind, cache_get, values_get.
  simpl in *. rewrite Hi. reflexivity.
Qed.

Lemma X15_unset_empty_witness :
  let w := exampleWorld (Some "not json") (rowsRead [["Date"; "Price"]; ["d"; "5"]]) 1000 in
  run (sheetData (withCredentials None w)) ∅
  = run (sheetData (withCredentials (Some "") w)) ∅ /\
  body (res (run (sheetData (withCredentials None w)) ∅)) = Some (series [ofZ 5]).
Proof.
  intros w. split.
  - apply X15_unset_empty_and_braces_agree; [now left | now right; left].
  - vm_compute. reflexivity.
Defined.
